(** * portablemc: the download task ([portablemc/download.py])

    A shallow embedding of the bulk downloader: the download list
    ([DownloadList]), the task that drives it ([DownloadTask.execute]) and
    the worker function run by every download thread ([_download_thread]).

    Conventions of the embedding.
    - Python integers are [Z]; strings are [string]; [Optional[T]] is
      [option T]; a [pathlib.Path] is the list of its parts.
    - The file system, the two queues and the log of issued requests form
      the [World] that a worker acts on; the worker's own variables
      ([conn_cache], the request counter) are in the same record.
    - The network is an oracle: the k-th request a worker issues for a URL
      has an arbitrary [RequestOutcome].
    - An exception that leaves a function is a value ([Raise]), never a
      stuck term.
    - [time.monotonic] and the floating-point speed estimate are left out:
      [DownloadResultProgress] carries no speed field here. *)

From Stdlib Require Import ZArith Lia Bool Ascii String.
From Stdlib Require Import Sorting.Sorted Sorting.Permutation.
From stdpp Require Import base option list strings gmap.

Local Open Scope string_scope.
Local Open Scope Z_scope.

(** ** Data model *)

(** A path is the sequence of its parts; [Path_parent] is [Path.parent]. *)
Abbreviation Path := (list string).

Definition Path_parent (p : Path) : Path := removelast p.

(** [class DownloadEntry]. *)
Record DownloadEntry := mkDownloadEntry {
  entry_url : string;
  entry_dst : Path;
  entry_size : option Z;
  entry_sha1 : option string;
  entry_name : string;
  entry_executable : bool
}.

(** [DownloadEntry.__init__]: [name] defaults to the URL, [executable] to
    [False] (the caller passes [false] for an omitted keyword). *)
Definition DownloadEntry_init (url : string) (dst : Path)
    (size : option Z) (sha1 : option string) (name : option string)
    (executable : bool) : DownloadEntry :=
  {| entry_url := url;
     entry_dst := dst;
     entry_size := size;
     entry_sha1 := sha1;
     entry_name := match name with None => url | Some n => n end;
     entry_executable := executable |}.

(** [class _DownloadEntry]: an entry with its URL already parsed. *)
Record _DownloadEntry := mk_DownloadEntry {
  raw_https : bool;
  raw_host : string;
  raw_entry : DownloadEntry
}.

(** Exception classes that the code raises or names in an [except] clause.
    [OtherException] stands for any class outside the worker's [except]
    tuple (a [UnicodeEncodeError] from [conn.request], for instance). *)
Inductive Exception :=
| ValueError (msg : string)
| AssertionError
| ConnectionError
| OSError
| HTTPException
| OtherException.

(** The result of a call that may raise. *)
Inductive Exceptional (A : Type) :=
| Return (a : A)
| Raise (e : Exception).
Arguments Return {A} a.
Arguments Raise {A} e.

(** [class DownloadError]: the failure codes. *)
Module DownloadError.
Definition CONNECTION : string := "connection".
Definition NOT_FOUND : string := "not_found".
Definition INVALID_SIZE : string := "invalid_size".
Definition INVALID_SHA1 : string := "invalid_sha1".
End DownloadError.

(** [DownloadResultProgress] and [DownloadResultError]. *)
Inductive DownloadResult :=
| DownloadResultProgress (thread_id : nat) (entry : DownloadEntry) (size : Z)
| DownloadResultError (thread_id : nat) (entry : DownloadEntry) (code : string).

(** [class DownloadList]. *)
Record DownloadList := mkDownloadList {
  dl_entries : list _DownloadEntry;
  dl_count : Z;
  dl_size : Z
}.

(** [DownloadList.__init__]. *)
Definition DownloadList_init : DownloadList :=
  {| dl_entries := []; dl_count := 0; dl_size := 0 |}.

(** [DownloadList.clear]. *)
Definition DownloadList_clear (self : DownloadList) : DownloadList :=
  {| dl_entries := []; dl_count := 0; dl_size := 0 |}.

(** ** File system *)

(** A node is a regular file (content and [st_mode]) or a directory (its
    [st_mode]). The root, the empty path, is a directory and is not stored. *)
Inductive Node :=
| RegularFile (data : list Byte.byte) (mode : Z)
| Directory (mode : Z).

(** [Path.is_file]. *)
Definition is_file (fs : gmap Path Node) (p : Path) : bool :=
  match fs !! p with
  | Some (RegularFile _ _) => true
  | _ => false
  end.

(** [Path.stat().st_size] of a regular file. *)
Definition st_size (data : list Byte.byte) : Z := Z.of_nat (length data).

(** [Path.stat().st_mode]; a missing path raises [FileNotFoundError], an
    [OSError]. *)
Definition st_mode (fs : gmap Path Node) (p : Path) : Exceptional Z :=
  match fs !! p with
  | Some (RegularFile _ m) => Return m
  | Some (Directory m) => Return m
  | None => Raise OSError
  end.

(** [Path.chmod(mode)]. *)
Definition chmod (p : Path) (m : Z) (fs : gmap Path Node)
    : Exceptional (gmap Path Node) :=
  match fs !! p with
  | Some (RegularFile data _) => Return (<[p := RegularFile data m]> fs)
  | Some (Directory _) => Return (<[p := Directory m]> fs)
  | None => Raise OSError
  end.

(** [Path.unlink(missing_ok=True)]: a missing file is fine, a directory is
    refused by the system. *)
Definition unlink (p : Path) (fs : gmap Path Node)
    : Exceptional (gmap Path Node) :=
  match fs !! p with
  | Some (Directory _) => Raise OSError
  | _ => Return (delete p fs)
  end.

(** ** Python's [list.sort(key=..., reverse=True)]

    The sort is stable, also with [reverse=True]: elements with equal keys
    keep their input order. A stable sort has one result, computed here by
    insertion from the right. *)
Section Sort.
Context {A : Type} (key : A -> Z).

Fixpoint insert_desc (x : A) (l : list A) : list A :=
  match l with
  | [] => [x]
  | y :: l' => if key y <=? key x then x :: l else y :: insert_desc x l'
  end.

Fixpoint sort_reverse (l : list A) : list A :=
  match l with
  | [] => []
  | x :: l' => insert_desc x (sort_reverse l')
  end.
End Sort.

(** The sort key of [DownloadList.download]:
    [lambda e: e.entry.size or 1048576]. Python's [or] yields its right
    operand when the left one is falsy: [None], and also [0]. *)
Definition sort_key (e : _DownloadEntry) : Z :=
  match entry_size (raw_entry e) with
  | None => 1048576
  | Some 0 => 1048576
  | Some s => s
  end.

(** ** The platform

    What the code takes from the Python library and from the operating
    system is a parameter of the development. *)

(** The two fields of [urllib.parse.urlparse]'s result that the code reads. *)
Record ParseResult := mkParseResult {
  scheme : string;
  netloc : string
}.

(** An [HTTPConnection] or [HTTPSConnection] object: [conn_id] is the
    identity of the object. *)
Record Connection := mkConnection {
  conn_id : nat;
  conn_https : bool;
  conn_host : string
}.

(** An [HTTPResponse]: the status, the [location] header, the chunks that
    successive [readinto] calls deliver into the 64 KiB buffer, and how the
    body ends: with the end of the stream ([None]) or with an exception
    raised by [readinto]. *)
Record HTTPResponse := mkHTTPResponse {
  res_status : Z;
  res_location : option string;
  res_chunks : list (list Byte.byte);
  res_end : option Exception
}.

(** What [conn.request("GET", url)] followed by [conn.getresponse()] does. *)
Inductive RequestOutcome :=
| RequestRaises (e : Exception)
| Response (res : HTTPResponse).

(** The loop [while True: read_len = res.readinto(buffer); if not read_len:
    break; ...]: the bytes read before the loop ends, and the exception
    that ended it, if one did. A chunk of length 0 ends the loop. *)
Fixpoint read_body (chunks : list (list Byte.byte)) (body_end : option Exception)
    (acc : list Byte.byte) : list Byte.byte * option Exception :=
  match chunks with
  | [] => (acc, body_end)
  | [] :: _ => (acc, None)
  | c :: rest => read_body rest body_end (acc ++ c)
  end.

(** The state a worker acts on: its own [conn_cache] (with the next fresh
    object identity), the number of requests issued so far and their log
    (connection used and URL), and the shared file system and queues. *)
Record World := mkWorld {
  conn_cache : gmap (bool * string) Connection;
  conn_next : nat;
  req_count : nat;
  req_log : list (Connection * string);
  fs : gmap Path Node;
  entries_queue : list (option _DownloadEntry);
  result_queue : list DownloadResult
}.

Definition set_fs (f : gmap Path Node) (w : World) : World :=
  mkWorld (conn_cache w) (conn_next w) (req_count w) (req_log w) f
          (entries_queue w) (result_queue w).

Definition set_entries_queue (q : list (option _DownloadEntry)) (w : World)
    : World :=
  mkWorld (conn_cache w) (conn_next w) (req_count w) (req_log w) (fs w)
          q (result_queue w).

(** [entries_queue.put(e)]. *)
Definition put_entry (e : option _DownloadEntry) (w : World) : World :=
  set_entries_queue (entries_queue w ++ [e]) w.

(** [result_queue.put(r)]. *)
Definition put_result (r : DownloadResult) (w : World) : World :=
  mkWorld (conn_cache w) (conn_next w) (req_count w) (req_log w) (fs w)
          (entries_queue w) (result_queue w ++ [r]).

(** A request is issued on [conn]: it is logged and counted. *)
Definition issue_request (conn : Connection) (url : string) (w : World)
    : World :=
  mkWorld (conn_cache w) (conn_next w) (S (req_count w))
          (req_log w ++ [(conn, url)]) (fs w)
          (entries_queue w) (result_queue w).

(** [conn = conn_cache[conn_key] = conn_type(raw_entry.host)]. *)
Definition new_connection (https : bool) (host : string) (w : World)
    : Connection * World :=
  let conn := mkConnection (conn_next w) https host in
  (conn,
   mkWorld (<[(https, host) := conn]> (conn_cache w)) (S (conn_next w))
           (req_count w) (req_log w) (fs w)
           (entries_queue w) (result_queue w)).

(** The [except (ConnectionError, OSError, HTTPException)] clause. *)
Definition caught (e : Exception) : bool :=
  match e with
  | ConnectionError | OSError | HTTPException => true
  | _ => false
  end.

(** [prev_mode | ((prev_mode & 0o444) >> 2)]. *)
Definition executable_mode (prev_mode : Z) : Z :=
  Z.lor prev_mode (Z.shiftr (Z.land prev_mode 292) 2).

(** The events sent to the watcher (the progress event without its speed). *)
Inductive Event :=
| DownloadStartEvent (threads_count entries_count size : Z)
| DownloadProgressEvent (thread_id : nat) (count : Z) (entry : DownloadEntry)
    (size : Z)
| DownloadCompleteEvent.

(** One turn of the worker's inner [while True] loop ends with [continue]
    (and the error it recorded), with [break], or with an exception that
    nothing in the worker catches. *)
Inductive Turn :=
| Continue (last_error : string) (w : World)
| Break (w : World)
| Propagate (e : Exception) (w : World).

(** What processing one entry, and what running the worker, comes to:
    the worker goes on with the next turn of its outer loop ([Running]),
    it waits on the empty entries queue, it has taken the sentinel and has
    stopped, or an exception has ended it. *)
Inductive Status :=
| Running (w : World)
| Waiting (w : World)
| Stopped (w : World)
| Crashed (e : Exception) (w : World).

(** ** Scenarios

    Concrete platforms, servers and entries on which the statements below
    are evaluated. *)
Module Scenario.

(** The prefix of a string before the first occurrence of a character, and
    the rest after it, if it occurs. *)
Fixpoint split_at (c : Ascii.ascii) (s : string) : string * option string :=
  match s with
  | EmptyString => (EmptyString, None)
  | String a s' =>
      if Ascii.eqb a c then (EmptyString, Some s')
      else let '(before, after) := split_at c s' in (String a before, after)
  end.

(** A stand-in for [urllib.parse.urlparse] on lower-case URLs of the form
    [scheme://netloc/path]. *)
Definition urlparse (url : string) : ParseResult :=
  match split_at ":" url with
  | (sch, Some (String "/" (String "/" rest))) =>
      mkParseResult sch (fst (split_at "/" rest))
  | (sch, Some _) => mkParseResult sch ""
  | (_, None) => mkParseResult "" ""
  end.

(** A stand-in for the digest: every content has the digest of the empty
    content. The one scenario that declares a digest declares another. *)
Definition sha1_hexdigest (data : list Byte.byte) : string :=
  "da39a3ee5e6b4b0d3255bfef95601890afd80709".

(** [0o100644] and [0o040755]. *)
Definition new_file_mode : Z := 33188.
Definition new_dir_mode : Z := 16877.

(** A machine with two logical CPUs. *)
Definition cpu_count : option positive := Some 2%positive.

(** A worker that has not run yet, an empty disk, empty queues. *)
Definition start : World := mkWorld ∅ 0 0 [] ∅ [] [].

Definition dst : Path := ["tmp"; "file"].
Definition url : string := "http://a/file".
Definition body : list Byte.byte := [Byte.x01; Byte.x02; Byte.x03].

(** Entries for [url]: with the size of [body], executable or not, with a
    size that [body] does not have, with a digest that [body] does not
    have, with the declared size 0, with no size, and with the size 5; and
    an entry for a URL of another scheme. *)
Definition plain : DownloadEntry :=
  DownloadEntry_init url dst (Some 3) None None false.
Definition tool : DownloadEntry :=
  DownloadEntry_init url dst (Some 3) None (Some "tool") true.
Definition wrong_size : DownloadEntry :=
  DownloadEntry_init url dst (Some 1189) None None false.
Definition wrong_sha1 : DownloadEntry :=
  DownloadEntry_init url dst None
    (Some "bdf48ef6b5d0d23bbb02e17d04865216179f510b") None false.
Definition empty_file : DownloadEntry :=
  DownloadEntry_init url ["tmp"; "empty"] (Some 0) None None false.
Definition unknown_size : DownloadEntry :=
  DownloadEntry_init url ["tmp"; "unknown"] None None None false.
Definition five_bytes : DownloadEntry :=
  DownloadEntry_init url ["tmp"; "five"] (Some 5) None None false.
Definition ftp : DownloadEntry :=
  DownloadEntry_init "ftp://a/file" dst (Some 3) None None false.

(** The prepared form of an entry for [url]. *)
Definition prepared (entry : DownloadEntry) : _DownloadEntry :=
  mk_DownloadEntry false "a" entry.

(** The connection object that a fresh worker creates for [url]. *)
Definition first_conn : Connection := mkConnection 0 false "a".

(** A server that serves [body]. *)
Definition ok : HTTPResponse := mkHTTPResponse 200 None [body] None.
Definition net_ok (k : nat) (conn : Connection) (u : string)
    : RequestOutcome :=
  Response ok.

(** A server that redirects every request to [url]. *)
Definition net_redirect (k : nat) (conn : Connection) (u : string)
    : RequestOutcome :=
  Response (mkHTTPResponse 302 (Some url) [] None).

(** A network on which the first request raises [OSError] and the next
    ones are served. *)
Definition net_flaky (k : nat) (conn : Connection) (u : string)
    : RequestOutcome :=
  match k with
  | O => RequestRaises OSError
  | S _ => Response ok
  end.



(** A disk on which [dst] exists with mode [0o100640]. *)
Definition disk_with_dst : gmap Path Node :=
  <[dst := RegularFile [Byte.x07] 33184]> (<[["tmp"] := Directory 16877]> ∅).

End Scenario.

Section Downloader.

(** [urllib.parse.urlparse]. *)
Variable urlparse : string -> ParseResult.
(** [hashlib.sha1(data).hexdigest()]; feeding the chunks one by one to
    [update] hashes their concatenation. *)
Variable sha1_hexdigest : list Byte.byte -> string.
(** The [st_mode] the system gives a file created by [open(..., "wb")] and
    a directory created by [mkdir]. *)
Variable new_file_mode : Z.
Variable new_dir_mode : Z.
(** The network: the outcome of the k-th request of a worker, issued on a
    connection for a URL. *)
Variable net : nat -> Connection -> string -> RequestOutcome.
(** [os.cpu_count()]: a positive number, or [None]. *)
Variable cpu_count : option positive.

(** [_DownloadEntry.from_entry]. *)
Definition from_entry (entry : DownloadEntry) : Exceptional _DownloadEntry :=
  let url_parsed := urlparse (entry_url entry) in
  if negb (String.eqb (scheme url_parsed) "http"
           || String.eqb (scheme url_parsed) "https") then
    Raise (ValueError ("unsupported scheme '" +:+ scheme url_parsed
                       +:+ "://' from url " +:+ entry_url entry))
  else
    Return (mk_DownloadEntry (String.eqb (scheme url_parsed) "https")
                             (netloc url_parsed) entry).

(** [DownloadList.add]. The file system is read, never written. *)
Definition add (fs : gmap Path Node) (self : DownloadList)
    (entry : DownloadEntry) (verify : bool) : Exceptional DownloadList :=
  let append :=
    match from_entry entry with
    | Raise e => Raise e
    | Return prepared =>
        Return {| dl_entries := dl_entries self ++ [prepared];
                  dl_count := dl_count self + 1;
                  dl_size := match entry_size entry with
                             | Some s => dl_size self + s
                             | None => dl_size self
                             end |}
    end in
  if verify then
    match fs !! entry_dst entry with
    | Some (RegularFile data _) =>
        match entry_size entry with
        | None => Return self
        | Some s => if s =? st_size data then Return self else append
        end
    | _ => append
    end
  else append.

(** [Path.mkdir(parents=True, exist_ok=True)]: every missing directory on
    the way is created; a regular file on the way is an error
    ([FileExistsError] or [NotADirectoryError], both [OSError]s). *)
Fixpoint mkdir_from (prefix : Path) (parts : list string)
    (fs : gmap Path Node) : Exceptional (gmap Path Node) :=
  match parts with
  | [] => Return fs
  | part :: parts' =>
      let q := (prefix ++ [part])%list in
      match fs !! q with
      | Some (RegularFile _ _) => Raise OSError
      | Some (Directory _) => mkdir_from q parts' fs
      | None => mkdir_from q parts' (<[q := Directory new_dir_mode]> fs)
      end
  end.

Definition mkdir_parents (p : Path) (fs : gmap Path Node)
    : Exceptional (gmap Path Node) :=
  mkdir_from [] p fs.

(** [Path.open("wb")], called once the parent directory exists: an existing
    file is truncated and keeps its mode, a missing one is created; a
    directory (the root included) cannot be opened for writing. *)
Definition open_wb (p : Path) (fs : gmap Path Node)
    : Exceptional (gmap Path Node) :=
  match p with
  | [] => Raise OSError
  | _ =>
      match fs !! p with
      | Some (Directory _) => Raise OSError
      | Some (RegularFile _ m) => Return (<[p := RegularFile [] m]> fs)
      | None => Return (<[p := RegularFile [] new_file_mode]> fs)
      end
  end.

(** The [dst_fp.write] calls of one download: the file, open and empty,
    receives [data]. *)
Definition write_all (p : Path) (data : list Byte.byte) (fs : gmap Path Node)
    : gmap Path Node :=
  match fs !! p with
  | Some (RegularFile old m) => <[p := RegularFile (old ++ data) m]> fs
  | _ => fs
  end.

(** [if entry.executable: prev_mode = ...stat().st_mode; ...chmod(...)]. *)
Definition make_executable (entry : DownloadEntry) (fs : gmap Path Node)
    : Exceptional (gmap Path Node) :=
  if entry_executable entry then
    match st_mode fs (entry_dst entry) with
    | Raise e => Raise e
    | Return prev_mode =>
        chmod (entry_dst entry) (executable_mode prev_mode) fs
    end
  else Return fs.

(** The checks after the download: [entry.size is not None and size !=
    entry.size], then [sha1 is not None and sha1.hexdigest() != entry.sha1];
    [None] when both pass. *)
Definition size_mismatch (entry : DownloadEntry) (data : list Byte.byte)
    : bool :=
  match entry_size entry with
  | Some s => negb (st_size data =? s)
  | None => false
  end.

Definition sha1_mismatch (entry : DownloadEntry) (data : list Byte.byte)
    : bool :=
  match entry_sha1 entry with
  | Some h => negb (String.eqb (sha1_hexdigest data) h)
  | None => false
  end.

Definition check_download (entry : DownloadEntry) (data : list Byte.byte)
    : option string :=
  if size_mismatch entry data then Some DownloadError.INVALID_SIZE
  else if sha1_mismatch entry data then Some DownloadError.INVALID_SHA1
  else None.

(** The part of a turn that follows a 200 response: the file is written,
    made executable if asked, checked, and removed when a check fails. *)
Definition store (thread_id : nat) (entry : DownloadEntry)
    (res : HTTPResponse) (w : World) : Turn :=
  match mkdir_parents (Path_parent (entry_dst entry)) (fs w) with
  | Raise e => Propagate e w
  | Return fs1 =>
      match open_wb (entry_dst entry) fs1 with
      | Raise e => Propagate e (set_fs fs1 w)
      | Return fs2 =>
          let '(data, exc) := read_body (res_chunks res) (res_end res) [] in
          let fs3 := write_all (entry_dst entry) data fs2 in
          match exc with
          | Some e => Propagate e (set_fs fs3 w)
          | None =>
              match make_executable entry fs3 with
              | Raise e => Propagate e (set_fs fs3 w)
              | Return fs4 =>
                  match check_download entry data with
                  | None =>
                      Break (put_result
                               (DownloadResultProgress thread_id entry
                                  (st_size data))
                               (set_fs fs4 w))
                  | Some last_error =>
                      match unlink (entry_dst entry) fs4 with
                      | Raise e => Propagate e (set_fs fs4 w)
                      | Return fs5 => Continue last_error (set_fs fs5 w)
                      end
                  end
              end
          end
      end
  end.

(** The part of a turn that follows a 301 or 302 response: a new entry for
    the [location] header is put on the entries queue. Without the header
    [res.headers["location"]] is [None]; [urlparse(None)] has the empty
    bytes scheme, which is neither of the two strings: [from_entry]
    raises. *)
Definition redirect (entry : DownloadEntry) (res : HTTPResponse) (w : World)
    : Turn :=
  match res_location res with
  | None =>
      Propagate (ValueError "unsupported scheme 'b''://' from url None") w
  | Some redirect_url =>
      let redirect_entry :=
        DownloadEntry_init redirect_url (entry_dst entry) (entry_size entry)
          (entry_sha1 entry) (Some (entry_name entry)) false in
      match from_entry redirect_entry with
      | Raise e => Propagate e w
      | Return raw => Break (put_entry (Some raw) w)
      end
  end.

(** One turn of the inner loop, once [try_num <= max_try_count]. *)
Definition attempt (thread_id : nat) (conn : Connection)
    (entry : DownloadEntry) (w : World) : Turn :=
  let w1 := issue_request conn (entry_url entry) w in
  match net (req_count w) conn (entry_url entry) with
  | RequestRaises e =>
      if caught e then Continue DownloadError.CONNECTION w1
      else Propagate e w1
  | Response res =>
      if (res_status res =? 301) || (res_status res =? 302) then
        redirect entry res w1
      else if negb (res_status res =? 200) then
        match read_body (res_chunks res) (res_end res) [] with
        | (_, Some e) => Propagate e w1
        | (_, None) => Continue DownloadError.NOT_FOUND w1
        end
      else store thread_id entry res w1
  end.

(** [max_try_count = 3]. *)
Definition max_try_count : nat := 3.

(** The inner [while True] loop, by the number of tries left:
    [tries_left = max_try_count - try_num] at the top of the loop body. *)
Fixpoint retry_loop (tries_left : nat) (thread_id : nat) (conn : Connection)
    (entry : DownloadEntry) (last_error : option string) (w : World)
    : Status :=
  match tries_left with
  | O =>
      match last_error with
      | None => Crashed AssertionError w
      | Some code =>
          Running (put_result (DownloadResultError thread_id entry code) w)
      end
  | S tries_left' =>
      match attempt thread_id conn entry w with
      | Continue code w' =>
          retry_loop tries_left' thread_id conn entry (Some code) w'
      | Break w' => Running w'
      | Propagate e w' => Crashed e w'
      end
  end.

(** [conn_key = (raw_entry.https, raw_entry.host)]. *)
Definition conn_key (raw : _DownloadEntry) : bool * string :=
  (raw_https raw, raw_host raw).

(** The connection for an entry: the cached one, or a new one that is
    cached. *)
Definition get_connection (raw : _DownloadEntry) (w : World)
    : Connection * World :=
  match conn_cache w !! conn_key raw with
  | Some conn => (conn, w)
  | None => new_connection (raw_https raw) (raw_host raw) w
  end.

(** The body of the outer loop for an entry taken from the queue. *)
Definition process_entry (thread_id : nat) (raw : _DownloadEntry) (w : World)
    : Status :=
  let '(conn, w1) := get_connection raw w in
  retry_loop max_try_count thread_id conn (raw_entry raw) None w1.

(** One turn of the outer loop of [_download_thread]: [Waiting] when
    [entries_queue.get()] blocks on an empty queue, [Stopped] after the
    sentinel. *)
Definition worker_step (thread_id : nat) (w : World) : Status :=
  match entries_queue w with
  | [] => Waiting w
  | None :: q => Stopped (set_entries_queue q w)
  | Some raw :: q => process_entry thread_id raw (set_entries_queue q w)
  end.

(** [_download_thread], for at most [turns] turns of its outer loop;
    [Running] when the loop has not ended by then. *)
Fixpoint worker_loop (turns : nat) (thread_id : nat) (w : World) : Status :=
  match turns with
  | O => Running w
  | S turns' =>
      match worker_step thread_id w with
      | Running w' => worker_loop turns' thread_id w'
      | s => s
      end
  end.

(** ** The engine *)

(** What a full iteration over [DownloadList.download] does: the list after
    it (its entries are sorted in place), the threads it started, what it
    put on the entries queue, the pairs it yielded, and whether it ran to
    its end ([false] when [result_queue.get()] waits for a result that
    never comes). *)
Record Download := mkDownload {
  download_list : DownloadList;
  download_threads : list nat;
  download_put : list (option _DownloadEntry);
  download_yield : list (Z * DownloadResult);
  download_exhausted : bool
}.

(** [DownloadList.download]; [results] is what the workers put on the
    result queue, in the order of arrival. *)
Definition download (self : DownloadList) (threads_count : Z)
    (results : list DownloadResult) : Download :=
  let sorted := sort_reverse sort_key (dl_entries self) in
  let self' := mkDownloadList sorted (dl_count self) (dl_size self) in
  let entries_count := length sorted in
  if (Z.of_nat entries_count =? 0) || (threads_count <? 1) then
    mkDownload self' [] [] [] true
  else
    let threads := seq 0 (Z.to_nat threads_count) in
    let received := take entries_count results in
    let yielded := imap (fun i r => (Z.of_nat (S i), r)) received in
    if (length received <? entries_count)%nat then
      mkDownload self' threads (Some <$> sorted) yielded false
    else
      mkDownload self' threads
        ((Some <$> sorted) ++ replicate (Z.to_nat threads_count) None)%list
        yielded true.

(** How [DownloadTask.execute] ends. *)
Inductive Outcome :=
| Returned
| RaisedDownloadError (errors : list (DownloadEntry * string))
| Blocked.

Record Execution := mkExecution {
  exec_list : DownloadList;
  exec_events : list Event;
  exec_threads : list nat;
  exec_outcome : Outcome
}.

(** [os.cpu_count() or 1]. *)
Definition logical_cpu_count : Z :=
  match cpu_count with
  | Some n => Z.pos n
  | None => 1
  end.

(** The event that [execute] sends for a yielded pair, if any. *)
Definition progress_event (y : Z * DownloadResult) : list Event :=
  match y with
  | (result_count, DownloadResultProgress thread_id entry size) =>
      [DownloadProgressEvent thread_id result_count entry size]
  | (_, DownloadResultError _ _ _) => []
  end.

(** What [execute] appends to [errors] for a yielded pair, if anything. *)
Definition error_item (y : Z * DownloadResult)
    : list (DownloadEntry * string) :=
  match y with
  | (_, DownloadResultProgress _ _ _) => []
  | (_, DownloadResultError _ entry code) => [(entry, code)]
  end.

(** [DownloadTask.execute] on the list [dl] of the state. *)
Definition execute (dl : DownloadList) (results : list DownloadResult)
    : Execution :=
  let entries_count := Z.of_nat (length (dl_entries dl)) in
  if entries_count =? 0 then mkExecution dl [] [] Returned
  else
    let threads_count := Z.min entries_count (logical_cpu_count * 4) in
    let start := DownloadStartEvent threads_count entries_count (dl_size dl) in
    let d := download dl threads_count results in
    let progress := flat_map progress_event (download_yield d) in
    let errors := flat_map error_item (download_yield d) in
    let dl' := download_list d in
    if negb (download_exhausted d) then
      mkExecution dl' (start :: progress) (download_threads d) Blocked
    else
      match errors with
      | _ :: _ =>
          mkExecution dl' (start :: progress) (download_threads d)
            (RaisedDownloadError errors)
      | [] =>
          mkExecution (mkDownloadList [] (dl_count dl') (dl_size dl'))
            (start :: progress ++ [DownloadCompleteEvent])%list
            (download_threads d) Returned
      end.

(** The world left by a [Status]. *)
Definition world_of (s : Status) : World :=
  match s with
  | Running w | Waiting w | Stopped w | Crashed _ w => w
  end.

(** A run in which one worker serves every entry: the engine has put the
    sorted entries on the queue, the worker takes them one after the other
    (with the entries its redirects add), and the engine reads the results
    it has put. *)
Definition one_worker_results (turns : nat) (thread_id : nat) (w : World)
    (dl : DownloadList) : World * list DownloadResult :=
  let queue := Some <$> sort_reverse sort_key (dl_entries dl) in
  let w' := world_of (worker_loop turns thread_id (set_entries_queue queue w)) in
  (w', result_queue w').


(** ** Vocabulary of the statements *)

(** The size on disk of a regular file. *)
Definition disk_size (fs : gmap Path Node) (p : Path) : option Z :=
  match fs !! p with
  | Some (RegularFile data _) => Some (st_size data)
  | _ => None
  end.

(** The condition under which [add] is to skip an entry: [verify] is set,
    the destination is a regular file, and the expected size is unset or is
    the size on disk. *)
Definition add_skips (fs : gmap Path Node) (entry : DownloadEntry)
    (verify : bool) : Prop :=
  verify = true /\ is_file fs (entry_dst entry) = true /\
  (entry_size entry = None \/ entry_size entry = disk_size fs (entry_dst entry)).

(** The schemes that [from_entry] accepts. *)
Definition supported_scheme (url : string) : Prop :=
  scheme (urlparse url) = "http" \/ scheme (urlparse url) = "https".

(** The list that [add] leaves when it appends. *)
Definition appended (self : DownloadList) (entry : DownloadEntry)
    : DownloadList :=
  {| dl_entries :=
       dl_entries self ++
       [mk_DownloadEntry
          (String.eqb (scheme (urlparse (entry_url entry))) "https")
          (netloc (urlparse (entry_url entry))) entry];
     dl_count := dl_count self + 1;
     dl_size := dl_size self + default 0 (entry_size entry) |}.

(** The failure codes of a failed check. *)
Definition validation_code (code : string) : Prop :=
  code = DownloadError.INVALID_SIZE \/ code = DownloadError.INVALID_SHA1.

(** The mode of [p] once [open("wb")] has opened it: the mode it had as a
    regular file, or the mode of a new file. *)
Definition mode_when_opened (fs : gmap Path Node) (p : Path) : Z :=
  match fs !! p with
  | Some (RegularFile _ m) => m
  | _ => new_file_mode
  end.

(** The execute bits of a mode: others (0), group (3), user (6). The read
    bit of the same principal is two positions higher. *)
Definition execute_bit (i : Z) : bool :=
  (i =? 0) || (i =? 3) || (i =? 6).

(** The world left by a [Turn]. *)
Definition turn_world (t : Turn) : World :=
  match t with
  | Continue _ w | Break w | Propagate _ w => w
  end.

(** A server that answers every request with a 301 or 302 response whose
    location has a supported scheme. *)
Definition always_redirects : Prop :=
  forall (k : nat) (conn : Connection) (url : string),
  exists res loc,
    net k conn url = Response res /\
    (res_status res = 301 \/ res_status res = 302) /\
    res_location res = Some loc /\
    supported_scheme loc.

(** ** Properties of the download list *)

Lemma supported_scheme_eqb url :
  supported_scheme url <->
  String.eqb (scheme (urlparse url)) "http"
  || String.eqb (scheme (urlparse url)) "https" = true.
Proof.
  unfold supported_scheme.
  rewrite orb_true_iff, !String.eqb_eq. reflexivity.
Qed.

Lemma from_entry_supported entry :
  supported_scheme (entry_url entry) ->
  from_entry entry =
  Return (mk_DownloadEntry
            (String.eqb (scheme (urlparse (entry_url entry))) "https")
            (netloc (urlparse (entry_url entry))) entry).
Proof.
  intros H. apply supported_scheme_eqb in H.
  unfold from_entry. cbv zeta. rewrite H. reflexivity.
Qed.

Lemma from_entry_unsupported entry :
  ~ supported_scheme (entry_url entry) ->
  exists msg, from_entry entry = Raise (ValueError msg).
Proof.
  intros H. rewrite supported_scheme_eqb in H.
  apply not_true_is_false in H.
  unfold from_entry. cbv zeta. rewrite H. eauto.
Qed.

Lemma supported_scheme_dec url : supported_scheme url \/ ~ supported_scheme url.
Proof.
  rewrite supported_scheme_eqb.
  destruct (String.eqb _ "http" || String.eqb _ "https"); auto.
Qed.

Lemma from_entry_inv entry raw :
  from_entry entry = Return raw ->
  supported_scheme (entry_url entry) /\ raw_entry raw = entry.
Proof.
  unfold from_entry. cbv zeta.
  destruct (String.eqb _ "http" || String.eqb _ "https") eqn:E; simpl.
  - intros [= <-]. split; [ now apply supported_scheme_eqb | reflexivity ].
  - discriminate.
Qed.

Lemma appended_neq self entry : appended self entry <> self.
Proof.
  intros H. apply (f_equal (fun d => length (dl_entries d))) in H.
  simpl in H. rewrite length_app in H. simpl in H. lia.
Qed.

Lemma add_skips_dec fs entry verify :
  add_skips fs entry verify \/ ~ add_skips fs entry verify.
Proof.
  unfold add_skips, is_file, disk_size.
  destruct verify; [ | right; intros [? _]; discriminate ].
  destruct (fs !! entry_dst entry) as [[data m | m] | ];
    try (right; intros (_ & ? & _); discriminate).
  destruct (entry_size entry) as [s | ]; [ | left; auto ].
  destruct (Z.eq_dec s (st_size data)) as [-> | Hne].
  - left; auto.
  - right. intros (_ & _ & [? | ?]); congruence.
Qed.

(** When the skip condition fails, [add] does what [from_entry] allows. *)
Lemma add_not_skipped fs self entry verify :
  ~ add_skips fs entry verify ->
  add fs self entry verify =
  match from_entry entry with
  | Raise e => Raise e
  | Return _ => Return (appended self entry)
  end.
Proof.
  intros Hn.
  assert (Happ :
    match from_entry entry with
    | Raise e => Raise e
    | Return prepared =>
        Return {| dl_entries := dl_entries self ++ [prepared];
                  dl_count := dl_count self + 1;
                  dl_size := match entry_size entry with
                             | Some s => dl_size self + s
                             | None => dl_size self
                             end |}
    end =
    match from_entry entry with
    | Raise e => Raise e
    | Return _ => Return (appended self entry)
    end).
  { unfold from_entry, appended. cbv zeta.
    destruct (negb _); [ reflexivity | ].
    destruct (entry_size entry); simpl; [ reflexivity | ].
    now rewrite Z.add_0_r. }
  unfold add. cbv zeta. rewrite Happ.
  unfold add_skips, is_file, disk_size in Hn.
  destruct verify; [ | reflexivity ].
  destruct (fs !! entry_dst entry) as [[data m | m] | ]; try reflexivity.
  destruct (entry_size entry) as [s | ].
  - destruct (Z.eqb_spec s (st_size data)) as [-> | Hne]; [ | reflexivity ].
    exfalso. apply Hn. auto.
  - exfalso. apply Hn. auto.
Qed.

Lemma add_skipped fs self entry verify :
  add_skips fs entry verify -> add fs self entry verify = Return self.
Proof.
  unfold add_skips, is_file, disk_size, add. cbv zeta.
  intros (-> & Hf & Hs).
  destruct (fs !! entry_dst entry) as [[data m | m] | ]; try discriminate.
  destruct Hs as [-> | ->]; [ reflexivity | ].
  now rewrite Z.eqb_refl.
Qed.

(** C6: [add(e, verify)] skips [e] (returns with the list as it was) iff
    [verify] is set, [e.dst] is a regular file and the expected size is
    unset or is the size on disk; otherwise it raises the unsupported
    scheme error iff the scheme of [e.url] is neither http nor https, and
    when it does not raise it appends the prepared entry, adds 1 to
    [count], and adds the expected size (0 when unset) to [size]. *)
Theorem add_spec (fs : gmap Path Node) (self : DownloadList)
    (entry : DownloadEntry) (verify : bool) :
  (add fs self entry verify = Return self <-> add_skips fs entry verify) /\
  (~ add_skips fs entry verify ->
   ((exists msg, add fs self entry verify = Raise (ValueError msg)) <->
    ~ supported_scheme (entry_url entry)) /\
   (supported_scheme (entry_url entry) ->
    add fs self entry verify = Return (appended self entry))).
Proof.
  split.
  - split; [ | apply add_skipped ].
    intros Hret. destruct (add_skips_dec fs entry verify) as [ | Hn ]; [ easy | ].
    exfalso. rewrite (add_not_skipped _ _ _ _ Hn) in Hret.
    destruct (from_entry entry); [ | discriminate ].
    injection Hret as Hret. now apply appended_neq in Hret.
  - intros Hn. rewrite (add_not_skipped _ _ _ _ Hn). split.
    + split.
      * intros [msg Hr] Hs. rewrite (from_entry_supported _ Hs) in Hr.
        discriminate.
      * intros Hu. destruct (from_entry_unsupported _ Hu) as [msg ->]. eauto.
    + intros Hs. now rewrite (from_entry_supported _ Hs).
Qed.


(** ** Properties of the file system *)

Lemma mkdir_from_lookup (parts : list string) :
  forall (prefix : Path) (fs fs' : gmap Path Node) (p : Path),
  mkdir_from prefix parts fs = Return fs' ->
  (length prefix + length parts < length p)%nat ->
  fs' !! p = fs !! p.
Proof.
  induction parts as [ | part parts IH ]; simpl; intros prefix fs fs' p Hm Hl.
  - now injection Hm as <-.
  - assert (Hq : (prefix ++ [part])%list <> p).
    { intros <-. rewrite length_app in Hl. simpl in Hl. lia. }
    assert (Hl' : (length (prefix ++ [part]) + length parts < length p)%nat).
    { rewrite length_app. simpl. lia. }
    destruct (fs !! (prefix ++ [part])%list) as [[data m | m] | ] eqn:E.
    + discriminate.
    + now apply (IH _ _ _ _ Hm).
    + rewrite (IH _ _ _ _ Hm Hl'). now apply lookup_insert_ne.
Qed.

Lemma length_Path_parent (p : Path) :
  p <> [] -> length p = S (length (Path_parent p)).
Proof.
  intros Hp. unfold Path_parent.
  destruct (exists_last Hp) as (q & x & ->).
  rewrite removelast_last, length_app. simpl. lia.
Qed.

(** Creating the parents of [p] leaves [p] itself as it was. *)
Lemma mkdir_parents_lookup (p : Path) (fs fs' : gmap Path Node) :
  p <> [] ->
  mkdir_parents (Path_parent p) fs = Return fs' ->
  fs' !! p = fs !! p.
Proof.
  intros Hp Hm. apply (mkdir_from_lookup _ _ _ _ _ Hm).
  rewrite (length_Path_parent p Hp). simpl. lia.
Qed.

Lemma open_wb_inv (p : Path) (fs fs' : gmap Path Node) :
  open_wb p fs = Return fs' ->
  p <> [] /\ fs' = <[p := RegularFile [] (mode_when_opened fs p)]> fs.
Proof.
  unfold open_wb, mode_when_opened.
  destruct p as [ | x p ]; [ discriminate | ].
  destruct (fs !! (x :: p)) as [[data m | m] | ]; intros [= <-]; easy.
Qed.

Lemma write_all_opened (p : Path) (data : list Byte.byte) (m : Z)
    (fs : gmap Path Node) :
  write_all p data (<[p := RegularFile [] m]> fs) = <[p := RegularFile data m]> fs.
Proof.
  unfold write_all. rewrite lookup_insert_eq. simpl.
  apply insert_insert_eq.
Qed.

Lemma make_executable_written (entry : DownloadEntry) (data : list Byte.byte) (m : Z)
    (fs : gmap Path Node) :
  make_executable entry (<[entry_dst entry := RegularFile data m]> fs) =
  Return (<[entry_dst entry :=
              RegularFile data
                (if entry_executable entry then executable_mode m else m)]> fs).
Proof.
  unfold make_executable, st_mode, chmod.
  destruct (entry_executable entry); [ | reflexivity ].
  rewrite lookup_insert_eq. f_equal. apply insert_insert_eq.
Qed.

Lemma unlink_inv (p : Path) (fs fs' : gmap Path Node) :
  unlink p fs = Return fs' -> fs' !! p = None.
Proof.
  unfold unlink.
  destruct (fs !! p) as [[data m | m] | ]; intros [= <-];
    apply lookup_delete_eq.
Qed.

(** ** Properties of one turn of the worker's inner loop *)

Lemma check_download_code entry data code :
  check_download entry data = Some code -> validation_code code.
Proof.
  unfold check_download, validation_code.
  destruct (size_mismatch entry data); [ intros [= <-]; auto | ].
  destruct (sha1_mismatch entry data); [ intros [= <-]; auto | discriminate ].
Qed.

(** What [store] comes to: an exception leaves the worker, or the file is
    written with its final mode and the checks decide between the progress
    result and the removal of the file. *)
Lemma store_cases (thread_id : nat) (entry : DownloadEntry)
    (res : HTTPResponse) (w : World) :
  (exists e w', store thread_id entry res w = Propagate e w') \/
  (exists (fs1 : gmap Path Node) (data : list Byte.byte),
     let m := mode_when_opened (fs w) (entry_dst entry) in
     let written :=
       <[entry_dst entry :=
           RegularFile data
             (if entry_executable entry then executable_mode m else m)]> fs1 in
     read_body (res_chunks res) (res_end res) [] = (data, None) /\
     store thread_id entry res w =
     match check_download entry data with
     | None =>
         Break (put_result
                  (DownloadResultProgress thread_id entry (st_size data))
                  (set_fs written w))
     | Some code =>
         Continue code (set_fs (delete (entry_dst entry) written) w)
     end).
Proof.
  unfold store.
  destruct (mkdir_parents _ (fs w)) as [fs1 | e] eqn:Hmk; [ | left; eauto ].
  destruct (open_wb (entry_dst entry) fs1) as [fs2 | e] eqn:Hop;
    [ | left; eauto ].
  apply open_wb_inv in Hop as [Hne ->].
  assert (Hm : mode_when_opened fs1 (entry_dst entry) =
               mode_when_opened (fs w) (entry_dst entry)).
  { unfold mode_when_opened. now rewrite (mkdir_parents_lookup _ _ _ Hne Hmk). }
  rewrite Hm.
  destruct (read_body (res_chunks res) (res_end res) []) as [data exc].
  rewrite write_all_opened.
  destruct exc as [e | ]; [ left; eauto | ].
  rewrite make_executable_written.
  right. exists fs1, data. cbv zeta. split; [ reflexivity | ].
  destruct (check_download entry data) as [code | ]; [ | reflexivity ].
  unfold unlink. rewrite lookup_insert_eq. reflexivity.
Qed.

Lemma redirect_Break (entry : DownloadEntry) (res : HTTPResponse)
    (w w' : World) :
  redirect entry res w = Break w' ->
  exists url raw,
    res_location res = Some url /\
    from_entry (DownloadEntry_init url (entry_dst entry) (entry_size entry)
                  (entry_sha1 entry) (Some (entry_name entry)) false)
    = Return raw /\
    w' = put_entry (Some raw) w.
Proof.
  unfold redirect.
  destruct (res_location res) as [url | ]; [ | discriminate ].
  destruct (from_entry _) as [raw | e] eqn:Hf; [ | discriminate ].
  intros [= <-]. eauto.
Qed.

Lemma redirect_not_Continue (entry : DownloadEntry) (res : HTTPResponse)
    (w w' : World) code :
  redirect entry res w <> Continue code w'.
Proof.
  unfold redirect.
  destruct (res_location res); [ | discriminate ].
  destruct (from_entry _); discriminate.
Qed.

(** Whatever a turn comes to, it has issued exactly one request, on the
    connection it was given, and has left the connection cache alone. *)
Lemma attempt_frame (thread_id : nat) (conn : Connection)
    (entry : DownloadEntry) (w : World) :
  let w' := turn_world (attempt thread_id conn entry w) in
  conn_cache w' = conn_cache w /\
  conn_next w' = conn_next w /\
  req_count w' = S (req_count w) /\
  req_log w' = (req_log w ++ [(conn, entry_url entry)])%list.
Proof.
  unfold attempt. cbv zeta.
  destruct (net _ _ _) as [e | res].
  - destruct (caught e); simpl; auto.
  - destruct ((res_status res =? 301) || (res_status res =? 302)).
    + unfold redirect.
      destruct (res_location res); simpl; auto.
      destruct (from_entry _); simpl; auto.
    + destruct (negb (res_status res =? 200)).
      * destruct (read_body _ _ _) as [data [e | ]]; simpl; auto.
      * unfold store.
        destruct (mkdir_parents _ _); simpl; auto.
        destruct (open_wb _ _); simpl; auto.
        destruct (read_body _ _ _) as [data [e | ]]; simpl; auto.
        destruct (make_executable _ _); simpl; auto.
        destruct (check_download _ _); simpl; auto.
        destruct (unlink _ _); simpl; auto.
Qed.

(** A turn that ends with [continue] has put nothing on either queue, and
    after a failed check the destination file is gone. *)
Lemma attempt_Continue (thread_id : nat) (conn : Connection)
    (entry : DownloadEntry) (w w' : World) (code : string) :
  attempt thread_id conn entry w = Continue code w' ->
  result_queue w' = result_queue w /\
  entries_queue w' = entries_queue w /\
  (validation_code code -> fs w' !! entry_dst entry = None).
Proof.
  unfold attempt. cbv zeta.
  destruct (net _ _ _) as [e | res].
  - destruct (caught e); [ | discriminate ].
    intros [= <- <-]. repeat split.
    intros [H | H]; discriminate H.
  - destruct ((res_status res =? 301) || (res_status res =? 302)).
    { intros H. now apply redirect_not_Continue in H. }
    destruct (negb (res_status res =? 200)).
    + destruct (read_body _ _ _) as [data [e | ]]; [ discriminate | ].
      intros [= <- <-]. repeat split.
      intros [H | H]; discriminate H.
    + destruct (store_cases thread_id entry res
                  (issue_request conn (entry_url entry) w))
        as [(e & w1 & ->) | (fs1 & data & _ & ->)]; [ discriminate | ].
      destruct (check_download entry data); [ | discriminate ].
      intros [= <- <-]. repeat split.
      intros _. simpl. apply lookup_delete_eq.
Qed.

(** A turn that ends with [break] has either put a redirect entry on the
    entries queue and no result, or the progress result of this entry. *)
Lemma attempt_Break (thread_id : nat) (conn : Connection)
    (entry : DownloadEntry) (w w' : World) :
  attempt thread_id conn entry w = Break w' ->
  (result_queue w' = result_queue w /\
   exists raw, entries_queue w' = (entries_queue w ++ [Some raw])%list) \/
  (entries_queue w' = entries_queue w /\
   exists size,
     result_queue w' =
     (result_queue w ++ [DownloadResultProgress thread_id entry size])%list).
Proof.
  unfold attempt. cbv zeta.
  destruct (net _ _ _) as [e | res].
  - destruct (caught e); discriminate.
  - destruct ((res_status res =? 301) || (res_status res =? 302)).
    { intros H. apply redirect_Break in H as (url & raw & _ & _ & ->).
      left. simpl. eauto. }
    destruct (negb (res_status res =? 200)).
    + destruct (read_body _ _ _) as [data [e | ]]; discriminate.
    + destruct (store_cases thread_id entry res
                  (issue_request conn (entry_url entry) w))
        as [(e & w1 & ->) | (fs1 & data & _ & ->)]; [ discriminate | ].
      destruct (check_download entry data); [ discriminate | ].
      intros [= <-]. right. simpl. eauto.
Qed.

(** A 301 or 302 response whose location has a supported scheme ends the
    turn with the redirect entry on the entries queue. *)
Lemma attempt_redirect (thread_id : nat) (conn : Connection)
    (entry : DownloadEntry) (res : HTTPResponse) (w : World) (url : string) :
  net (req_count w) conn (entry_url entry) = Response res ->
  res_status res = 301 \/ res_status res = 302 ->
  res_location res = Some url ->
  supported_scheme url ->
  attempt thread_id conn entry w =
  Break (put_entry
           (Some (mk_DownloadEntry
                    (String.eqb (scheme (urlparse url)) "https")
                    (netloc (urlparse url))
                    (mkDownloadEntry url (entry_dst entry) (entry_size entry)
                       (entry_sha1 entry) (entry_name entry) false)))
           (issue_request conn (entry_url entry) w)).
Proof.
  intros Hnet Hst Hloc Hs.
  unfold attempt. cbv zeta. rewrite Hnet.
  assert ((res_status res =? 301) || (res_status res =? 302) = true) as ->.
  { destruct Hst as [-> | ->]; reflexivity. }
  unfold redirect. rewrite Hloc.
  rewrite from_entry_supported by exact Hs. reflexivity.
Qed.

(** C10: when an entry receives a 301 or 302 response, the turn either ends
    with the unsupported scheme error of [from_entry] (nothing is put on
    the queue), or puts one new entry on the entries queue and no result;
    that entry targets the location, keeps the original [dst], [size],
    [sha1] and [name], and its [executable] flag is [False] whatever the
    flag of the original entry was. *)
Theorem redirect_entry_fields (thread_id : nat) (conn : Connection)
    (entry : DownloadEntry) (res : HTTPResponse) (w : World) :
  net (req_count w) conn (entry_url entry) = Response res ->
  res_status res = 301 \/ res_status res = 302 ->
  (exists msg w',
     attempt thread_id conn entry w = Propagate (ValueError msg) w' /\
     entries_queue w' = entries_queue w /\
     result_queue w' = result_queue w) \/
  (exists raw w',
     attempt thread_id conn entry w = Break w' /\
     entries_queue w' = (entries_queue w ++ [Some raw])%list /\
     result_queue w' = result_queue w /\
     res_location res = Some (entry_url (raw_entry raw)) /\
     entry_dst (raw_entry raw) = entry_dst entry /\
     entry_size (raw_entry raw) = entry_size entry /\
     entry_sha1 (raw_entry raw) = entry_sha1 entry /\
     entry_name (raw_entry raw) = entry_name entry /\
     entry_executable (raw_entry raw) = false).
Proof.
  intros Hnet Hst.
  destruct (res_location res) as [url | ] eqn:Hloc.
  - destruct (supported_scheme_dec url) as [Hs | Hu].
    + right. rewrite (attempt_redirect _ _ _ _ _ _ Hnet Hst Hloc Hs).
      eexists _, _. split; [ reflexivity | ]. simpl. repeat split.
    + left. unfold attempt. cbv zeta. rewrite Hnet.
      assert ((res_status res =? 301) || (res_status res =? 302) = true) as ->.
      { destruct Hst as [-> | ->]; reflexivity. }
      unfold redirect. rewrite Hloc.
      destruct (from_entry_unsupported
                  (DownloadEntry_init url (entry_dst entry) (entry_size entry)
                     (entry_sha1 entry) (Some (entry_name entry)) false) Hu)
        as [msg ->].
      eexists _, _. split; [ reflexivity | ]. simpl. auto.
  - left. unfold attempt. cbv zeta. rewrite Hnet.
    assert ((res_status res =? 301) || (res_status res =? 302) = true) as ->.
    { destruct Hst as [-> | ->]; reflexivity. }
    unfold redirect. rewrite Hloc.
    eexists _, _. split; [ reflexivity | ]. simpl. auto.
Qed.

(** ** The mode of an executable download *)

Lemma read_mask_testbit (i : Z) :
  0 <= i -> Z.testbit 292 (i + 2) = execute_bit i.
Proof.
  intros Hi. unfold execute_bit.
  destruct (Z_lt_le_dec i 7) as [Hlt | Hge].
  - assert (i = 0 \/ i = 1 \/ i = 2 \/ i = 3 \/ i = 4 \/ i = 5 \/ i = 6)
      as [-> | [-> | [-> | [-> | [-> | [-> | ->]]]]]] by lia;
      reflexivity.
  - rewrite Z.bits_above_log2 by (try (change (Z.log2 292) with 8); lia).
    destruct (Z.eqb_spec i 0), (Z.eqb_spec i 3), (Z.eqb_spec i 6);
      try lia; reflexivity.
Qed.

(** The new mode, bit by bit: a bit is set iff it was set, or it is an
    execute bit and the read bit of the same principal was set. *)
Lemma executable_mode_testbit (m i : Z) :
  0 <= i ->
  Z.testbit (Z.lor m (Z.shiftr (Z.land m 292) 2)) i =
  Z.testbit m i || (execute_bit i && Z.testbit m (i + 2)).
Proof.
  intros Hi.
  rewrite Z.lor_spec, Z.shiftr_spec, Z.land_spec by exact Hi.
  rewrite (read_mask_testbit i Hi).
  f_equal. apply andb_comm.
Qed.

(** C9: when an entry whose [executable] flag is set is downloaded with
    success (a 200 response, and the turn ends with [break]), the file has
    the mode [m | ((m & 0o444) >> 2)], where [m] is the mode it had when the
    download had written it: bit by bit, every bit of [m] is kept, and an
    execute bit is gained exactly where the read bit of the same principal
    is set. *)
Theorem executable_download_mode (thread_id : nat) (conn : Connection)
    (entry : DownloadEntry) (res : HTTPResponse) (w w' : World) :
  entry_executable entry = true ->
  net (req_count w) conn (entry_url entry) = Response res ->
  res_status res = 200 ->
  attempt thread_id conn entry w = Break w' ->
  let m := mode_when_opened (fs w) (entry_dst entry) in
  let m' := Z.lor m (Z.shiftr (Z.land m 292) 2) in
  exists data,
    result_queue w' =
    (result_queue w ++
     [DownloadResultProgress thread_id entry (st_size data)])%list /\
    fs w' !! entry_dst entry = Some (RegularFile data m') /\
    forall i, 0 <= i ->
      Z.testbit m' i = Z.testbit m i || (execute_bit i && Z.testbit m (i + 2)).
Proof.
  intros Hx Hnet Hst. unfold attempt. cbv zeta. rewrite Hnet, Hst. simpl.
  destruct (store_cases thread_id entry res
              (issue_request conn (entry_url entry) w))
    as [(e & w1 & ->) | (fs1 & data & _ & ->)]; [ discriminate | ].
  destruct (check_download entry data); [ discriminate | ].
  intros [= <-]. exists data. simpl. rewrite Hx.
  split; [ reflexivity | ]. split.
  - rewrite lookup_insert_eq. reflexivity.
  - intros i Hi. now apply executable_mode_testbit.
Qed.

(** ** Properties of the retry loop *)

(** When the retry loop ends with the failure result of the entry, the
    code of the result is the error recorded last, and a failed check has
    left no file. *)
Lemma retry_loop_failure (thread_id : nat) (conn : Connection)
    (entry : DownloadEntry) (code : string) (tries_left : nat) :
  forall (last_error : option string) (w w' : World),
    (last_error = Some code -> validation_code code ->
     fs w !! entry_dst entry = None) ->
    retry_loop tries_left thread_id conn entry last_error w = Running w' ->
    result_queue w' =
    (result_queue w ++ [DownloadResultError thread_id entry code])%list ->
    validation_code code ->
    fs w' !! entry_dst entry = None.
Proof.
  induction tries_left as [ | n IH ]; simpl; intros last_error w w' Hinv Hrun Hres Hcode.
  - destruct last_error as [c | ]; [ | discriminate ].
    injection Hrun as <-. simpl in Hres |- *.
    apply app_inv_head in Hres. injection Hres as ->.
    now apply Hinv.
  - destruct (attempt thread_id conn entry w) as [c w1 | w1 | e w1] eqn:Ha;
      [ | | discriminate ].
    + apply attempt_Continue in Ha as (Hrq & _ & Hfs).
      apply (IH (Some c) w1 w'); [ | exact Hrun | now rewrite Hrq | exact Hcode ].
      intros [= ->]. exact Hfs.
    + injection Hrun as <-.
      apply attempt_Break in Ha as [[Hrq _] | [_ [size Hrq]]].
      * rewrite Hrq in Hres.
        apply (f_equal (@length _)) in Hres.
        rewrite length_app in Hres. simpl in Hres. lia.
      * rewrite Hrq in Hres. apply app_inv_head in Hres. discriminate.
Qed.

(** The failure result comes after as many requests as tries were left. *)
Lemma retry_loop_failure_requests (thread_id : nat) (conn : Connection)
    (entry : DownloadEntry) (code : string) (tries_left : nat) :
  forall (last_error : option string) (w w' : World),
    retry_loop tries_left thread_id conn entry last_error w = Running w' ->
    result_queue w' =
    (result_queue w ++ [DownloadResultError thread_id entry code])%list ->
    req_count w' = (req_count w + tries_left)%nat.
Proof.
  induction tries_left as [ | n IH ]; simpl; intros last_error w w' Hrun Hres.
  - destruct last_error as [c | ]; [ | discriminate ].
    injection Hrun as <-. simpl. lia.
  - pose proof (attempt_frame thread_id conn entry w) as Hf. cbv zeta in Hf.
    destruct (attempt thread_id conn entry w) as [c w1 | w1 | e w1] eqn:Ha;
      [ | | discriminate ]; simpl in Hf; destruct Hf as (_ & _ & Hc & _).
    + apply attempt_Continue in Ha as (Hrq & _ & _).
      rewrite (IH (Some c) w1 w' Hrun) by now rewrite Hrq. lia.
    + injection Hrun as <-.
      apply attempt_Break in Ha as [[Hrq _] | [_ [size Hrq]]].
      * rewrite Hrq in Hres.
        apply (f_equal (@length _)) in Hres.
        rewrite length_app in Hres. simpl in Hres. lia.
      * rewrite Hrq in Hres. apply app_inv_head in Hres. discriminate.
Qed.

Lemma get_connection_frame (raw : _DownloadEntry) (w : World) :
  let cw := get_connection raw w in
  conn_cache (snd cw) !! conn_key raw = Some (fst cw) /\
  fs (snd cw) = fs w /\
  entries_queue (snd cw) = entries_queue w /\
  result_queue (snd cw) = result_queue w /\
  req_count (snd cw) = req_count w /\
  req_log (snd cw) = req_log w.
Proof.
  unfold get_connection.
  destruct (conn_cache w !! conn_key raw) as [conn | ] eqn:E; cbv zeta.
  - repeat split. exact E.
  - unfold new_connection, conn_key. cbn [fst snd conn_cache].
    rewrite lookup_insert_eq. repeat split.
Qed.

(** C5: a turn that ends on a failed check ([invalid_size] or
    [invalid_sha1]) has unlinked the destination before the next turn, and
    when the processing of an entry ends with the failure result of that
    entry and one of these two codes, the worker has issued its 3 requests
    and the destination file does not exist. *)
Theorem failed_check_removes_file (thread_id : nat) (raw : _DownloadEntry)
    (w : World) :
  (forall conn w0 w' code,
     attempt thread_id conn (raw_entry raw) w0 = Continue code w' ->
     validation_code code ->
     fs w' !! entry_dst (raw_entry raw) = None) /\
  (forall w' code,
     process_entry thread_id raw w = Running w' ->
     result_queue w' =
     (result_queue w ++
      [DownloadResultError thread_id (raw_entry raw) code])%list ->
     validation_code code ->
     req_count w' = (req_count w + 3)%nat /\
     fs w' !! entry_dst (raw_entry raw) = None).
Proof.
  split.
  - intros conn w0 w' code Ha. now apply attempt_Continue in Ha.
  - intros w' code. unfold process_entry.
    pose proof (get_connection_frame raw w) as Hg. cbv zeta in Hg.
    destruct (get_connection raw w) as [conn w1]. simpl in Hg.
    destruct Hg as (_ & _ & _ & Hrq & Hrc & _).
    intros Hrun Hres Hcode. rewrite <- Hrq in Hres. split.
    + rewrite <- Hrc.
      exact (retry_loop_failure_requests thread_id conn (raw_entry raw) code
               max_try_count None w1 w' Hrun Hres).
    + apply (retry_loop_failure thread_id conn (raw_entry raw) code
               max_try_count None w1 w'); try assumption.
      discriminate.
Qed.

(** ** Exceptions of a request *)

Lemma attempt_request_raises (thread_id : nat) (conn : Connection)
    (entry : DownloadEntry) (w : World) (e : Exception) :
  net (req_count w) conn (entry_url entry) = RequestRaises e ->
  caught e = true ->
  attempt thread_id conn entry w =
  Continue DownloadError.CONNECTION (issue_request conn (entry_url entry) w).
Proof.
  intros Hnet Hc. unfold attempt. cbv zeta. now rewrite Hnet, Hc.
Qed.

(** C3, as the code has it: when issuing the request or obtaining the
    response raises an exception of the [except] clause, the turn leaves
    the connection cache as it was, the connection is still cached under
    the [(https, host)] key of the entry, and the next turn issues its
    request on that same connection object. *)
Theorem failed_request_keeps_connection (thread_id : nat)
    (raw : _DownloadEntry) (w : World) (e : Exception) :
  let conn := fst (get_connection raw w) in
  let w0 := snd (get_connection raw w) in
  let url := entry_url (raw_entry raw) in
  net (req_count w0) conn url = RequestRaises e ->
  caught e = true ->
  exists w1,
    attempt thread_id conn (raw_entry raw) w0
    = Continue DownloadError.CONNECTION w1 /\
    conn_cache w1 = conn_cache w0 /\
    conn_cache w1 !! conn_key raw = Some conn /\
    process_entry thread_id raw w
    = retry_loop 2 thread_id conn (raw_entry raw)
        (Some DownloadError.CONNECTION) w1 /\
    req_log (turn_world (attempt thread_id conn (raw_entry raw) w1))
    = (req_log w0 ++ [(conn, url); (conn, url)])%list.
Proof.
  cbv zeta. intros Hnet Hc.
  pose proof (get_connection_frame raw w) as Hg. cbv zeta in Hg.
  destruct Hg as (Hkey & _).
  pose proof (attempt_request_raises thread_id _ _ _ _ Hnet Hc) as Ha.
  eexists. split; [ exact Ha | ].
  split; [ reflexivity | ]. split; [ exact Hkey | ]. split.
  - unfold process_entry.
    destruct (get_connection raw w) as [conn w0] eqn:Eg. simpl in Ha |- *.
    now rewrite Ha.
  - destruct (attempt_frame thread_id (fst (get_connection raw w))
                (raw_entry raw)
                (issue_request (fst (get_connection raw w))
                   (entry_url (raw_entry raw)) (snd (get_connection raw w))))
      as (_ & _ & _ & Hlog).
    rewrite Hlog. simpl. now rewrite <- app_assoc.
Qed.


(** ** Redirects *)

(** One turn of the worker on a queue that holds one entry, under a server
    that redirects: the queue holds the redirect entry, no result is put. *)
Lemma worker_step_redirect (thread_id : nat) (raw : _DownloadEntry)
    (w : World) :
  always_redirects ->
  entries_queue w = [Some raw] ->
  exists raw' w',
    worker_step thread_id w = Running w' /\
    entries_queue w' = [Some raw'] /\
    result_queue w' = result_queue w /\
    req_count w' = S (req_count w) /\
    entry_dst (raw_entry raw') = entry_dst (raw_entry raw).
Proof.
  intros Hred Hq. unfold worker_step. rewrite Hq. unfold process_entry.
  pose proof (get_connection_frame raw (set_entries_queue [] w)) as Hg.
  cbv zeta in Hg.
  destruct (get_connection raw (set_entries_queue [] w)) as [conn w1].
  simpl in Hg. destruct Hg as (_ & _ & Heq & Hrq & Hrc & _).
  destruct (Hred (req_count w1) conn (entry_url (raw_entry raw)))
    as (res & loc & Hnet & Hst & Hloc & Hs).
  simpl. rewrite (attempt_redirect _ _ _ _ _ _ Hnet Hst Hloc Hs).
  eexists _, _. split; [ reflexivity | ]. simpl.
  rewrite Heq, Hrq, Hrc. auto.
Qed.

(** C1, as the code has it: the entry put back on a redirect carries no
    depth counter, and the worker puts one back at every 301 or 302
    response with a supported location. Under a server that always
    redirects, whatever the number [n] of turns, the worker has then
    received [n] redirects, has put no result, and the queue holds the
    next redirect entry. *)
Theorem redirects_are_not_capped (thread_id : nat) (n : nat) :
  always_redirects ->
  forall (raw : _DownloadEntry) (w : World),
    entries_queue w = [Some raw] ->
    exists raw' w',
      worker_loop n thread_id w = Running w' /\
      entries_queue w' = [Some raw'] /\
      result_queue w' = result_queue w /\
      req_count w' = (req_count w + n)%nat /\
      entry_dst (raw_entry raw') = entry_dst (raw_entry raw).
Proof.
  intros Hred. induction n as [ | n IH ]; intros raw w Hq.
  - exists raw, w. simpl. rewrite Nat.add_0_r. auto.
  - destruct (worker_step_redirect thread_id raw w Hred Hq)
      as (raw1 & w1 & Hstep & Hq1 & Hr1 & Hc1 & Hd1).
    destruct (IH raw1 w1 Hq1) as (raw2 & w2 & Hloop & Hq2 & Hr2 & Hc2 & Hd2).
    exists raw2, w2. simpl. rewrite Hstep.
    split; [ exact Hloop | ]. split; [ exact Hq2 | ].
    split; [ congruence | ]. split; [ lia | congruence ].
Qed.

(** ** Properties of the sort before dispatch *)

Section SortFacts.
Context {A : Type} (key : A -> Z).

Lemma insert_desc_Permutation (x : A) (l : list A) :
  Permutation (insert_desc key x l) (x :: l).
Proof.
  induction l as [ | y l IH ]; simpl.
  - reflexivity.
  - destruct (key y <=? key x); [ reflexivity | ].
    rewrite IH. apply perm_swap.
Qed.

Lemma sort_reverse_Permutation (l : list A) :
  Permutation (sort_reverse key l) l.
Proof.
  induction l as [ | x l IH ]; simpl.
  - reflexivity.
  - rewrite insert_desc_Permutation. now apply perm_skip.
Qed.

Lemma sort_reverse_length (l : list A) :
  length (sort_reverse key l) = length l.
Proof. apply Permutation_length, sort_reverse_Permutation. Qed.

Lemma insert_desc_sorted (x : A) (l : list A) :
  StronglySorted (fun a b => key b <= key a) l ->
  StronglySorted (fun a b => key b <= key a) (insert_desc key x l).
Proof.
  induction 1 as [ | y l Hs IH Hy ]; simpl.
  - constructor; constructor.
  - destruct (Z.leb_spec (key y) (key x)) as [Hle | Hlt].
    + constructor; [ now constructor | ].
      constructor; [ exact Hle | ].
      eapply Forall_impl; [ exact Hy | ]. simpl. intros b Hb. lia.
    + constructor; [ exact IH | ].
      rewrite (insert_desc_Permutation x l).
      constructor; [ lia | exact Hy ].
Qed.

(** The list comes out in descending order of the key. *)
Lemma sort_reverse_sorted (l : list A) :
  StronglySorted (fun a b => key b <= key a) (sort_reverse key l).
Proof.
  induction l as [ | x l IH ]; simpl.
  - constructor.
  - now apply insert_desc_sorted.
Qed.

End SortFacts.

(** [download] leaves the entries of the list in descending order of
    [sort_key], and the same entries. *)
Lemma download_sorts_entries (self : DownloadList) (threads_count : Z)
    (results : list DownloadResult) :
  let sorted :=
    dl_entries (download_list (download self threads_count results)) in
  StronglySorted (fun a b => sort_key b <= sort_key a) sorted /\
  Permutation sorted (dl_entries self).
Proof.
  assert (dl_entries (download_list (download self threads_count results))
          = sort_reverse sort_key (dl_entries self)) as ->.
  { unfold download. cbv zeta.
    destruct (_ || _); [ reflexivity | ].
    destruct (_ <? _)%nat; reflexivity. }
  split; [ apply sort_reverse_sorted | apply sort_reverse_Permutation ].
Qed.

(** ** Properties of the engine *)

Lemma logical_cpu_count_pos : 1 <= logical_cpu_count.
Proof. unfold logical_cpu_count. destruct cpu_count; lia. Qed.

Lemma download_threads_length (self : DownloadList) (threads_count : Z)
    (results : list DownloadResult) :
  dl_entries self <> [] ->
  1 <= threads_count ->
  download_threads (download self threads_count results)
  = seq 0 (Z.to_nat threads_count).
Proof.
  intros Hne Ht. unfold download. cbv zeta.
  rewrite sort_reverse_length.
  assert ((Z.of_nat (length (dl_entries self)) =? 0) = false) as ->.
  { apply Z.eqb_neq. destruct (dl_entries self); [ easy | simpl; lia ]. }
  assert ((threads_count <? 1) = false) as -> by (apply Z.ltb_ge; lia).
  simpl. destruct (_ <? _)%nat; reflexivity.
Qed.

Lemma execute_threads (dl : DownloadList) (results : list DownloadResult) :
  dl_entries dl <> [] ->
  exec_threads (execute dl results)
  = seq 0 (Z.to_nat (Z.min (Z.of_nat (length (dl_entries dl)))
                           (logical_cpu_count * 4))).
Proof.
  intros Hne. unfold execute. cbv zeta.
  assert (Hn : 1 <= Z.of_nat (length (dl_entries dl))).
  { destruct (dl_entries dl); [ easy | simpl; lia ]. }
  assert ((Z.of_nat (length (dl_entries dl)) =? 0) = false) as ->
    by (apply Z.eqb_neq; lia).
  pose proof logical_cpu_count_pos as Hc.
  set (tc := Z.min _ _).
  assert (Ht : 1 <= tc) by (unfold tc; lia).
  pose proof (download_threads_length dl tc results Hne Ht) as Hd.
  destruct (negb _); [ exact Hd | ].
  destruct (flat_map error_item _); exact Hd.
Qed.

(** C8: the threads that a run starts are numbered from 0 and their number
    is fixed by the entries and by [os.cpu_count()]: when it returns [n] the
    run starts [min(entry_count, 4 * n)] threads, which is
    [min(entry_count, max(1, 4 * n))], and when it returns [None] the run
    starts [min(entry_count, 4)] threads; on an empty list [execute] returns
    at once: it starts no thread and sends no event (no start event, no
    complete event), and the list is as it was. *)
Theorem execute_thread_count (dl : DownloadList)
    (results : list DownloadResult) :
  let entry_count := Z.of_nat (length (dl_entries dl)) in
  let run := execute dl results in
  Z.of_nat (length (exec_threads run))
  = match cpu_count with
    | Some n => Z.min entry_count (4 * Z.pos n)
    | None => Z.min entry_count 4
    end /\
  (forall n : positive,
     cpu_count = Some n ->
     Z.of_nat (length (exec_threads run))
     = Z.min entry_count (Z.max 1 (4 * Z.pos n))) /\
  exec_threads run = seq 0 (length (exec_threads run)) /\
  (entry_count = 0 -> run = mkExecution dl [] [] Returned).
Proof.
  cbv zeta.
  assert (H0 : Z.of_nat (length (dl_entries dl)) = 0 ->
               execute dl results = mkExecution dl [] [] Returned).
  { intros H0. unfold execute. cbv zeta. now rewrite H0. }
  assert (Hlen : Z.of_nat (length (exec_threads (execute dl results)))
                 = Z.min (Z.of_nat (length (dl_entries dl)))
                     (logical_cpu_count * 4) /\
                 exec_threads (execute dl results)
                 = seq 0 (length (exec_threads (execute dl results)))).
  { pose proof logical_cpu_count_pos as Hc.
    destruct (dl_entries dl) as [ | raw l ] eqn:E.
    - rewrite (H0 eq_refl). simpl. split; [ lia | reflexivity ].
    - rewrite <- E in *.
      assert (Hne : dl_entries dl <> []) by (rewrite E; discriminate).
      rewrite (execute_threads dl results Hne), length_seq.
      assert (1 <= Z.of_nat (length (dl_entries dl)))
        by (rewrite E; simpl; lia).
      split; [ lia | reflexivity ]. }
  destruct Hlen as [Hlen Hseq]. rewrite Hlen. unfold logical_cpu_count.
  split; [ destruct cpu_count; lia | ].
  split; [ intros n ->; lia | ].
  split; [ exact Hseq | exact H0 ].
Qed.

Lemma no_error_items (results : list DownloadResult) :
  Forall (fun r => exists t e s, r = DownloadResultProgress t e s) results ->
  forall g : nat -> Z,
    flat_map error_item (imap (fun i r => (g i, r)) results) = [].
Proof.
  induction 1 as [ | r results (t & e & s & ->) _ IH ]; intros g.
  - reflexivity.
  - simpl. exact (IH (fun i => g (S i))).
Qed.

(** When every result is a progress result, [execute] returns, the entries
    of the list are cleared, and [count] and [size] are what they were. *)
Lemma execute_success (dl : DownloadList) (results : list DownloadResult) :
  dl_entries dl <> [] ->
  length results = length (dl_entries dl) ->
  Forall (fun r => exists t e s, r = DownloadResultProgress t e s) results ->
  exec_outcome (execute dl results) = Returned /\
  exec_list (execute dl results) = mkDownloadList [] (dl_count dl) (dl_size dl).
Proof.
  intros Hne Hlen Hall. unfold execute. cbv zeta.
  assert (Hn : 1 <= Z.of_nat (length (dl_entries dl))).
  { destruct (dl_entries dl); [ easy | simpl; lia ]. }
  assert ((Z.of_nat (length (dl_entries dl)) =? 0) = false) as ->
    by (apply Z.eqb_neq; lia).
  pose proof logical_cpu_count_pos as Hc.
  set (tc := Z.min _ _).
  assert (Ht : (tc <? 1) = false) by (apply Z.ltb_ge; unfold tc; lia).
  unfold download. cbv zeta. rewrite sort_reverse_length.
  assert ((Z.of_nat (length (dl_entries dl)) =? 0) = false) as ->
    by (apply Z.eqb_neq; lia).
  rewrite Ht. simpl orb. cbv iota.
  rewrite <- Hlen, firstn_all.
  assert ((length results <? length results)%nat = false) as ->
    by (apply Nat.ltb_ge; lia).
  cbn [download_exhausted download_yield download_list negb].
  rewrite (no_error_items results Hall (fun i => Z.of_nat (S i))).
  split; reflexivity.
Qed.

End Downloader.

(** ** The statements on the scenarios *)

Local Abbreviation attempt_on net :=
  (attempt Scenario.urlparse Scenario.sha1_hexdigest Scenario.new_file_mode
     Scenario.new_dir_mode net).
Local Abbreviation process_entry_on net :=
  (process_entry Scenario.urlparse Scenario.sha1_hexdigest
     Scenario.new_file_mode Scenario.new_dir_mode net).
Local Abbreviation worker_loop_on net :=
  (worker_loop Scenario.urlparse Scenario.sha1_hexdigest
     Scenario.new_file_mode Scenario.new_dir_mode net).

(** C1 fails on the code: under a server that redirects every request, the
    worker has received 7 redirects after 7 turns, more than 5, and still no
    failure result has been put, and the redirect entry is on the queue
    once more. *)
Lemma seven_redirects_no_failure :
  let run :=
    worker_loop_on Scenario.net_redirect 7 0
      (set_entries_queue [Some (Scenario.prepared Scenario.plain)]
         Scenario.start) in
  (exists w, run = Running w) /\
  req_count (world_of run) = 7%nat /\
  result_queue (world_of run) = [] /\
  entries_queue (world_of run) = [Some (Scenario.prepared Scenario.plain)].
Proof.
  vm_compute. repeat split. eexists. reflexivity.
Qed.

Lemma net_redirect_always_redirects :
  always_redirects Scenario.urlparse Scenario.net_redirect.
Proof.
  intros k conn u.
  exists (mkHTTPResponse 302 (Some Scenario.url) [] None), Scenario.url.
  split; [ reflexivity | ]. split; [ now right | ].
  split; [ reflexivity | ]. left. reflexivity.
Qed.

Lemma redirects_are_not_capped_witness :
  exists raw' w',
    worker_loop_on Scenario.net_redirect 7 0
      (set_entries_queue [Some (Scenario.prepared Scenario.plain)]
         Scenario.start) = Running w' /\
    entries_queue w' = [Some raw'] /\
    result_queue w' = [] /\
    req_count w' = 7%nat /\
    entry_dst (raw_entry raw') = Scenario.dst.
Proof.
  exact (redirects_are_not_capped Scenario.urlparse Scenario.sha1_hexdigest
           Scenario.new_file_mode Scenario.new_dir_mode Scenario.net_redirect
           0 7 net_redirect_always_redirects
           (Scenario.prepared Scenario.plain)
           (set_entries_queue [Some (Scenario.prepared Scenario.plain)]
              Scenario.start)
           eq_refl).
Defined.

(** C3 fails on the code: the first request of the entry raises [OSError];
    after that turn the connection is still in the cache under the key of
    the entry, and the log of the requests shows that the retry went out on
    the same connection object. *)
Lemma failed_connection_stays_cached :
  let raw := Scenario.prepared Scenario.plain in
  let conn := fst (get_connection raw Scenario.start) in
  let w0 := snd (get_connection raw Scenario.start) in
  let first := attempt_on Scenario.net_flaky 0 conn Scenario.plain w0 in
  let run := process_entry_on Scenario.net_flaky 0 raw Scenario.start in
  conn = Scenario.first_conn /\
  first = Continue DownloadError.CONNECTION (turn_world first) /\
  conn_cache (turn_world first) !! conn_key raw = Some conn /\
  req_log (world_of run) = [(conn, Scenario.url); (conn, Scenario.url)] /\
  result_queue (world_of run) = [DownloadResultProgress 0 Scenario.plain 3].
Proof.
  vm_compute. repeat split.
Qed.

Lemma failed_request_keeps_connection_witness :
  let raw := Scenario.prepared Scenario.plain in
  let conn := fst (get_connection raw Scenario.start) in
  let w0 := snd (get_connection raw Scenario.start) in
  exists w1,
    attempt_on Scenario.net_flaky 0 conn Scenario.plain w0
    = Continue DownloadError.CONNECTION w1 /\
    conn_cache w1 = conn_cache w0 /\
    conn_cache w1 !! conn_key raw = Some conn /\
    process_entry_on Scenario.net_flaky 0 raw Scenario.start
    = retry_loop Scenario.urlparse Scenario.sha1_hexdigest
        Scenario.new_file_mode Scenario.new_dir_mode Scenario.net_flaky
        2 0 conn Scenario.plain (Some DownloadError.CONNECTION) w1 /\
    req_log (turn_world (attempt_on Scenario.net_flaky 0 conn Scenario.plain w1))
    = (req_log w0 ++ [(conn, Scenario.url); (conn, Scenario.url)])%list.
Proof.
  exact (failed_request_keeps_connection Scenario.urlparse
           Scenario.sha1_hexdigest Scenario.new_file_mode
           Scenario.new_dir_mode Scenario.net_flaky 0
           (Scenario.prepared Scenario.plain) Scenario.start OSError
           eq_refl eq_refl).
Defined.



Lemma failed_check_removes_file_witness :
  let size_run :=
    process_entry_on Scenario.net_ok 0 (Scenario.prepared Scenario.wrong_size)
      Scenario.start in
  let sha1_run :=
    process_entry_on Scenario.net_ok 0 (Scenario.prepared Scenario.wrong_sha1)
      Scenario.start in
  (result_queue (world_of size_run)
   = [DownloadResultError 0 Scenario.wrong_size DownloadError.INVALID_SIZE] /\
   req_count (world_of size_run) = 3%nat /\
   fs (world_of size_run) !! Scenario.dst = None) /\
  (result_queue (world_of sha1_run)
   = [DownloadResultError 0 Scenario.wrong_sha1 DownloadError.INVALID_SHA1] /\
   req_count (world_of sha1_run) = 3%nat /\
   fs (world_of sha1_run) !! Scenario.dst = None).
Proof.
  cbv zeta. split.
  - split; [ vm_compute; reflexivity | ].
    apply (proj2 (failed_check_removes_file Scenario.urlparse
                    Scenario.sha1_hexdigest Scenario.new_file_mode
                    Scenario.new_dir_mode Scenario.net_ok 0
                    (Scenario.prepared Scenario.wrong_size) Scenario.start)
             _ DownloadError.INVALID_SIZE).
    + vm_compute. reflexivity.
    + vm_compute. reflexivity.
    + left. reflexivity.
  - split; [ vm_compute; reflexivity | ].
    apply (proj2 (failed_check_removes_file Scenario.urlparse
                    Scenario.sha1_hexdigest Scenario.new_file_mode
                    Scenario.new_dir_mode Scenario.net_ok 0
                    (Scenario.prepared Scenario.wrong_sha1) Scenario.start)
             _ DownloadError.INVALID_SHA1).
    + vm_compute. reflexivity.
    + vm_compute. reflexivity.
    + right. reflexivity.
Defined.

Lemma add_spec_witness :
  add Scenario.urlparse Scenario.disk_with_dst DownloadList_init
    Scenario.wrong_size true
  = Return (mkDownloadList [Scenario.prepared Scenario.wrong_size] 1 1189) /\
  add Scenario.urlparse Scenario.disk_with_dst DownloadList_init
    (DownloadEntry_init Scenario.url Scenario.dst (Some 1) None None false) true
  = Return DownloadList_init /\
  exists msg,
    add Scenario.urlparse Scenario.disk_with_dst DownloadList_init
      Scenario.ftp false = Raise (ValueError msg).
Proof.
  split; [ | split ].
  - refine (proj2 (proj2 (add_spec Scenario.urlparse Scenario.disk_with_dst
                            DownloadList_init Scenario.wrong_size true) _) _).
    + intros (_ & _ & [H | H]); vm_compute in H; discriminate H.
    + left. reflexivity.
  - refine (proj2 (proj1 (add_spec Scenario.urlparse Scenario.disk_with_dst
                            DownloadList_init _ true)) _).
    split; [ reflexivity | ]. split; [ reflexivity | ].
    right. reflexivity.
  - refine (proj2 (proj1 (proj2 (add_spec Scenario.urlparse
                                   Scenario.disk_with_dst DownloadList_init
                                   Scenario.ftp false) _)) _).
    + intros (H & _). discriminate H.
    + intros [H | H]; vm_compute in H; discriminate H.
Defined.

Lemma execute_thread_count_witness :
  let three :=
    mkDownloadList
      [Scenario.prepared Scenario.plain; Scenario.prepared Scenario.five_bytes;
       Scenario.prepared Scenario.unknown_size] 3 8 in
  let nine :=
    mkDownloadList (replicate 9 (Scenario.prepared Scenario.plain)) 9 27 in
  let threads (cpu_count : option positive) (dl : DownloadList) :=
    Z.of_nat (length (exec_threads (execute cpu_count dl []))) in
  threads (Some 2%positive) three = 3 /\
  threads (Some 1%positive) nine = 4 /\
  threads (Some 2%positive) nine = 8 /\
  threads (Some 3%positive) nine = 9 /\
  threads None nine = 4 /\
  threads (Some 2%positive) nine = Z.min 9 (Z.max 1 (4 * 2)) /\
  execute Scenario.cpu_count DownloadList_init []
  = mkExecution DownloadList_init [] [] Returned.
Proof.
  cbv zeta. split; [ | split; [ | split; [ | split; [ | split; [ | split ] ] ] ] ].
  - exact (proj1 (execute_thread_count (Some 2%positive)
                    (mkDownloadList
                       [Scenario.prepared Scenario.plain;
                        Scenario.prepared Scenario.five_bytes;
                        Scenario.prepared Scenario.unknown_size] 3 8) [])).
  - exact (proj1 (execute_thread_count (Some 1%positive)
                    (mkDownloadList
                       (replicate 9 (Scenario.prepared Scenario.plain)) 9 27)
                    [])).
  - exact (proj1 (execute_thread_count (Some 2%positive)
                    (mkDownloadList
                       (replicate 9 (Scenario.prepared Scenario.plain)) 9 27)
                    [])).
  - exact (proj1 (execute_thread_count (Some 3%positive)
                    (mkDownloadList
                       (replicate 9 (Scenario.prepared Scenario.plain)) 9 27)
                    [])).
  - exact (proj1 (execute_thread_count None
                    (mkDownloadList
                       (replicate 9 (Scenario.prepared Scenario.plain)) 9 27)
                    [])).
  - exact (proj1 (proj2 (execute_thread_count (Some 2%positive)
                           (mkDownloadList
                              (replicate 9 (Scenario.prepared Scenario.plain))
                              9 27) [])) 2%positive eq_refl).
  - exact (proj2 (proj2 (proj2 (execute_thread_count Scenario.cpu_count
                                  DownloadList_init []))) eq_refl).
Defined.

Lemma executable_download_mode_witness :
  let w := snd (get_connection (Scenario.prepared Scenario.tool)
                  (set_fs Scenario.disk_with_dst Scenario.start)) in
  let w' := turn_world (attempt_on Scenario.net_ok 0 Scenario.first_conn
                          Scenario.tool w) in
  exists data,
    result_queue w'
    = [DownloadResultProgress 0 Scenario.tool (st_size data)] /\
    fs w' !! Scenario.dst = Some (RegularFile data 33256) /\
    forall i, 0 <= i ->
      Z.testbit 33256 i
      = Z.testbit 33184 i || (execute_bit i && Z.testbit 33184 (i + 2)).
Proof.
  exact (executable_download_mode Scenario.urlparse Scenario.sha1_hexdigest
           Scenario.new_file_mode Scenario.new_dir_mode Scenario.net_ok 0
           Scenario.first_conn Scenario.tool Scenario.ok
           (snd (get_connection (Scenario.prepared Scenario.tool)
                   (set_fs Scenario.disk_with_dst Scenario.start)))
           _ eq_refl eq_refl eq_refl eq_refl).
Defined.

Lemma redirect_entry_fields_witness :
  let w := snd (get_connection (Scenario.prepared Scenario.tool)
                  Scenario.start) in
  exists raw w',
    attempt_on Scenario.net_redirect 0 Scenario.first_conn Scenario.tool w
    = Break w' /\
    entries_queue w' = [Some raw] /\
    entry_name (raw_entry raw) = "tool" /\
    entry_executable Scenario.tool = true /\
    entry_executable (raw_entry raw) = false.
Proof.
  cbv zeta.
  destruct (redirect_entry_fields Scenario.urlparse Scenario.sha1_hexdigest
              Scenario.new_file_mode Scenario.new_dir_mode
              Scenario.net_redirect 0 Scenario.first_conn Scenario.tool
              (mkHTTPResponse 302 (Some Scenario.url) [] None)
              (snd (get_connection (Scenario.prepared Scenario.tool)
                      Scenario.start))
              eq_refl (or_intror eq_refl))
    as [(msg & w' & H & _) | (raw & w' & H & Hq & _ & _ & _ & _ & _ & Hn & Hx)].
  - vm_compute in H. discriminate H.
  - exists raw, w'. split; [ exact H | ]. split; [ exact Hq | ].
    split; [ exact Hn | ]. split; [ reflexivity | exact Hx ].
Defined.

(** C2 on the code: one entry of 3 bytes is added and downloaded with
    success by one worker. [execute] returns and the entries are cleared,
    but [count] is still 1 and [size] still 3; a second entry of 5 bytes
    added for a chained run makes [count] 2 and [size] 8, and the start
    event of that run announces 8 bytes for its single entry of 5. *)
Lemma successful_run_keeps_count_and_size :
  let dl := mkDownloadList [Scenario.prepared Scenario.plain] 1 3 in
  let results :=
    snd (one_worker_results Scenario.urlparse Scenario.sha1_hexdigest
           Scenario.new_file_mode Scenario.new_dir_mode Scenario.net_ok
           1 0 Scenario.start dl) in
  let run := execute Scenario.cpu_count dl results in
  let chained :=
    mkDownloadList [Scenario.prepared Scenario.five_bytes] 2 8 in
  add Scenario.urlparse ∅ DownloadList_init Scenario.plain false = Return dl /\
  results = [DownloadResultProgress 0 Scenario.plain 3] /\
  exec_outcome run = Returned /\
  exec_events run
  = [DownloadStartEvent 1 1 3; DownloadProgressEvent 0 1 Scenario.plain 3;
     DownloadCompleteEvent] /\
  exec_list run = mkDownloadList [] 1 3 /\
  exec_list run <> DownloadList_clear (exec_list run) /\
  add Scenario.urlparse ∅ (exec_list run) Scenario.five_bytes false
  = Return chained /\
  exec_events (execute Scenario.cpu_count chained [])
  = [DownloadStartEvent 1 1 8].
Proof.
  vm_compute. repeat split. discriminate.
Qed.

(** C7 on the code: the sort key of an entry with the declared size 0 is
    1048576, the key of an entry without size. The entry of size 0 is
    moved ahead of an entry of 5 bytes, and it is not put after an entry of
    unknown size that follows it in the list. Declared sizes other than 0
    are in descending order. *)
Lemma zero_size_sorts_as_one_mebibyte :
  let zero := Scenario.prepared Scenario.empty_file in
  let three := Scenario.prepared Scenario.plain in
  let five := Scenario.prepared Scenario.five_bytes in
  let unknown := Scenario.prepared Scenario.unknown_size in
  let dispatch l :=
    dl_entries (download_list (download (mkDownloadList l 0 0) 1 [])) in
  entry_size (raw_entry zero) = Some 0 /\
  sort_key zero = 1048576 /\
  dispatch [five; zero] = [zero; five] /\
  dispatch [zero; unknown] = [zero; unknown] /\
  dispatch [three; unknown; five] = [unknown; five; three].
Proof.
  vm_compute. repeat split.
Qed.
